(** * pkg/security/auth.go: user authentication hooks

    A shallow embedding of [GetCertificateUser], [UserAuthCertHook],
    [UserAuthPasswordHook] and [ProtoAuthHook], and the properties of
    the authentication decisions they take.

    Conventions of the embedding:
    - a Go [string] is a [string] (a sequence of bytes), [len] is
      [String.length] and [==] is [String.eqb];
    - [len] of a slice is [length] of a list;
    - a Go [error] value is observed through its message; the nil error
      is [None];
    - a pointer that may be nil is an [option];
    - a function returning [(T, error)] returns [Ok t] for [(t, nil)]
      and [Err e] for [(zero, e)], the only two shapes the package
      returns;
    - a closure is its code together with the variables it captured;
      its code runs in a state monad over those variables. *)

From Stdlib Require Import String Ascii List Bool Arith.
From Stdlib Require Strings.Byte.
Import ListNotations.
Local Open Scope list_scope.
Local Open Scope string_scope.

Set Implicit Arguments.

(** ** Errors (github.com/pkg/errors) and formatting (fmt) *)

(** An error created by [errors.New] or [errors.Errorf]: the message
    returned by its [Error()] method (the recorded call stack is not
    observed by this package). *)
Record error : Type := mkError { Error : string }.

Definition errors_New (message : string) : error := mkError message.

Inductive result (T : Type) : Type :=
| Ok (t : T)
| Err (e : error).
Arguments Ok {T} t.
Arguments Err {T} e.

Module proto.

(** What the hooks observe of a [proto.Message] interface value: the
    name of its dynamic type (the [%T] verb), its [String()] rendering
    (the [%s] verb) and, when the dynamic type implements
    [RequestWithUser], the result of [GetUser()].  The nil interface
    value has type name ["<nil>"] and implements nothing. *)
Record RequestWithUser : Type := { GetUser : string }.

Record Message : Type :=
  { TypeName : string;
    String : string;
    asRequestWithUser : option RequestWithUser }.

End proto.

Module fmt.

(** The operands the package hands to a format string. *)
Inductive operand : Type :=
| OfString (s : string)
| OfError (e : error)
| OfMessage (m : proto.Message).

(** [%s]: the string itself, [Error()] of an error, [String()] of a
    message. *)
Definition verb_s (a : operand) : string :=
  match a with
  | OfString s => s
  | OfError e => Error e
  | OfMessage m => proto.String m
  end.

(** [%T]: the name of the operand's dynamic type. *)
Definition verb_T (a : operand) : string :=
  match a with
  | OfString _ => "string"
  | OfError _ => "*errors.fundamental"
  | OfMessage m => proto.TypeName m
  end.

(** [fmt.Sprintf] for the verbs this package uses.  A verb with no
    operand left prints Go's [%!v(MISSING)] marker. *)
Fixpoint Sprintf (format : string) (a : list operand) : string :=
  match format with
  | EmptyString => EmptyString
  | String.String "%" (String.String "s" rest) =>
      match a with
      | x :: a' => verb_s x ++ Sprintf rest a'
      | [] => "%!s(MISSING)" ++ Sprintf rest []
      end
  | String.String "%" (String.String "T" rest) =>
      match a with
      | x :: a' => verb_T x ++ Sprintf rest a'
      | [] => "%!T(MISSING)" ++ Sprintf rest []
      end
  | String.String c rest => String.String c (Sprintf rest a)
  end.

End fmt.

Definition errors_Errorf (format : string) (a : list fmt.operand) : error :=
  errors_New (fmt.Sprintf format a).

(** ** Handshake evidence (crypto/tls, crypto/x509) *)

Module pkix.
Record Name : Type := { CommonName : string }.
End pkix.

Module x509.
Record Certificate : Type := { Subject : pkix.Name }.
End x509.

Module tls.
Record ConnectionState : Type :=
  { PeerCertificates : list x509.Certificate;
    VerifiedChains : list (list x509.Certificate) }.
End tls.

(** ** Constants *)

(** NodeUser is used by nodes for intra-cluster traffic. *)
Definition NodeUser : string := "node".
(** RootUser is the default cluster administrator. *)
Definition RootUser : string := "root".

(** ** GetCertificateUser *)

(** Extracts the username from a client certificate.  The match on
    [PeerCertificates] is the test [len(...) == 0] together with the
    later access to element 0. *)
Definition GetCertificateUser (tlsState : option tls.ConnectionState)
  : result string :=
  match tlsState with
  | None => Err (errors_Errorf "request is not using TLS" [])
  | Some s =>
      match tls.PeerCertificates s with
      | [] => Err (errors_Errorf "no client certificates in request" [])
      | cert0 :: _ =>
          if negb (Nat.eqb (length (tls.VerifiedChains s))
                           (length (tls.PeerCertificates s)))
          then Err (errors_Errorf "client cerficates not verified" [])
          else Ok (pkix.CommonName (x509.Subject cert0))
      end
  end.

(** ** Closures

    A Go func value is code plus the variables it captured by
    reference.  The code of a hook runs in a state monad over the
    captured variables, so that a write to one of them would show in
    the closure a call leaves behind. *)

Definition M (V A : Type) : Type := V -> A * V.

Definition ret {V A : Type} (a : A) : M V A := fun v => (a, v).

Definition bind {V A B : Type} (m : M V A) (k : A -> M V B) : M V B :=
  fun v => let (a, v') := m v in k a v'.

(** Reads a captured variable. *)
Definition load {V A : Type} (var : V -> A) : M V A := fun v => (var v, v).

Notation "x <- m ;; k" := (bind m (fun x => k))
  (at level 100, m at next level, right associativity).

(** A hook taking an [A] and the [clientConnection] flag. *)
Record closure (V A : Type) : Type :=
  { captured : V;
    code : A -> bool -> M V (option error) }.

(** One call of a hook: the returned error and the closure afterwards. *)
Definition call {V A : Type} (f : closure V A) (a : A) (clientConnection : bool)
  : option error * closure V A :=
  let (err, v') := code f a clientConnection (captured f) in
  (err, {| captured := v'; code := code f |}).

(** The error a call returns; [None] is the nil error. *)
Definition outcome {V A : Type} (f : closure V A) (a : A) (clientConnection : bool)
  : option error :=
  fst (call f a clientConnection).

(** UserAuthHook authenticates a user based on their username and
    whether their connection originates from a client or another node
    in the cluster. *)
Definition UserAuthHook (V : Type) : Type := closure V string.

(** ** UserAuthCertHook *)

(** The variables the returned closure refers to. *)
Record certHookVars : Type :=
  { cert_insecureMode : bool;
    cert_certUser : string }.

Definition certHookCode (requestedUser : string) (clientConnection : bool)
  : M certHookVars (option error) :=
  if Nat.eqb (String.length requestedUser) 0 then
    ret (Some (errors_New "user is missing"))
  else if negb clientConnection && negb (String.eqb requestedUser NodeUser) then
    ret (Some (errors_Errorf "user %s is not allowed" [fmt.OfString requestedUser]))
  else
    insecureMode <- load cert_insecureMode ;;
    if (insecureMode : bool) then ret None
    else
      certUser <- load cert_certUser ;;
      if negb (String.eqb certUser NodeUser || String.eqb certUser requestedUser) then
        ret (Some (errors_Errorf "requested user is %s, but certificate is for %s"
                     [fmt.OfString requestedUser; fmt.OfString certUser]))
      else ret None.

(** Builds an authentication hook based on the security mode and client
    certificate.  [certUser] starts as the empty string and is assigned
    only when the mode is secure. *)
Definition UserAuthCertHook (insecureMode : bool) (tlsState : option tls.ConnectionState)
  : result (UserAuthHook certHookVars) :=
  let certUser := "" in
  match (if negb insecureMode then GetCertificateUser tlsState else Ok certUser) with
  | Err err => Err err
  | Ok certUser =>
      Ok {| captured := {| cert_insecureMode := insecureMode;
                           cert_certUser := certUser |};
            code := certHookCode |}
  end.

(** ** UserAuthPasswordHook *)

Record passwordHookVars : Type :=
  { pw_insecureMode : bool;
    pw_password : string;
    pw_hashedPassword : list Byte.byte }.

Section PasswordHook.

(** [compareHashAndPassword] lives in another file of the package; it
    returns nil when the password matches the hash. *)
Variable compareHashAndPassword : list Byte.byte -> string -> option error.

Definition passwordHookCode (requestedUser : string) (clientConnection : bool)
  : M passwordHookVars (option error) :=
  if Nat.eqb (String.length requestedUser) 0 then
    ret (Some (errors_New "user is missing"))
  else if negb clientConnection then
    ret (Some (errors_New
                 "password authentication is only available for client connections"))
  else
    insecureMode <- load pw_insecureMode ;;
    if (insecureMode : bool) then ret None
    else if String.eqb requestedUser RootUser then
      ret (Some (errors_Errorf "user %s must authenticate using a client certificate "
                   [fmt.OfString RootUser]))
    else
      password <- load pw_password ;;
      hashedPassword <- load pw_hashedPassword ;;
      if Nat.eqb (String.length password) 0
         || match compareHashAndPassword hashedPassword password with
            | Some _ => true
            | None => false
            end
      then ret (Some (errors_New "invalid password"))
      else ret None.

(** Builds an authentication hook based on the security mode, password,
    and its potentially matching hash. *)
Definition UserAuthPasswordHook
  (insecureMode : bool) (password : string) (hashedPassword : list Byte.byte)
  : UserAuthHook passwordHookVars :=
  {| captured := {| pw_insecureMode := insecureMode;
                    pw_password := password;
                    pw_hashedPassword := hashedPassword |};
     code := passwordHookCode |}.

End PasswordHook.

(** ** ProtoAuthHook *)

(** Calls the captured hook; what it leaves behind stays captured. *)
Definition callCaptured {V A : Type} (a : A) (clientConnection : bool)
  : M (closure V A) (option error) :=
  fun userHook => call userHook a clientConnection.

Definition protoHookCode (request : proto.Message) (clientConnection : bool)
  : M (UserAuthHook certHookVars) (option error) :=
  match proto.asRequestWithUser request with
  | None => ret (Some (errors_Errorf "unknown request type: %T" [fmt.OfMessage request]))
  | Some requestWithUser =>
      r <- callCaptured (proto.GetUser requestWithUser) clientConnection ;;
      match r with
      | Some err =>
          ret (Some (errors_Errorf "%s error in request: %s"
                       [fmt.OfError err; fmt.OfMessage request]))
      | None => ret None
      end
  end.

(** Builds an authentication hook based on the security mode and client
    certificate.  The message passed to the hook must implement
    RequestWithUser. *)
Definition ProtoAuthHook (insecureMode : bool) (tlsState : option tls.ConnectionState)
  : result (closure (UserAuthHook certHookVars) proto.Message) :=
  match UserAuthCertHook insecureMode tlsState with
  | Err err => Err err
  | Ok userHook => Ok {| captured := userHook; code := protoHookCode |}
  end.

(** ** Failure kinds

    The names the specification gives to the failures, as the errors
    the package creates for them. *)

Definition NoTLS : error := errors_New "request is not using TLS".
Definition NoPeerCertificate : error := errors_New "no client certificates in request".
Definition UnverifiedCertificate : error := errors_New "client cerficates not verified".
Definition MissingUser : error := errors_New "user is missing".
Definition NodeOnlyViolation (claimed : string) : error :=
  errors_New ("user " ++ claimed ++ " is not allowed").
Definition IdentityMismatch (claimed identity : string) : error :=
  errors_New ("requested user is " ++ claimed ++ ", but certificate is for " ++ identity).
Definition ClientOnly : error :=
  errors_New "password authentication is only available for client connections".
Definition RootRequiresCertificate : error :=
  errors_New "user root must authenticate using a client certificate ".
Definition InvalidCredentials : error := errors_New "invalid password".
Definition UnsupportedRequestType (typeName : string) : error :=
  errors_New ("unknown request type: " ++ typeName).
(** A failure of the user hook as the request hook reports it. *)
Definition InRequest (err : error) (request : proto.Message) : error :=
  errors_New (Error err ++ " error in request: " ++ proto.String request).

(** The closure left behind by a history of calls. *)
Definition after {V A : Type} (f : closure V A) (history : list (A * bool))
  : closure V A :=
  fold_left (fun g ac => snd (call g (fst ac) (snd ac))) history f.

(** ** Sample inputs *)

Definition certFor (commonName : string) : x509.Certificate :=
  {| x509.Subject := {| pkix.CommonName := commonName |} |}.

(** A handshake with one presented certificate and one verified chain. *)
Definition verifiedState (commonName : string) : tls.ConnectionState :=
  {| tls.PeerCertificates := [certFor commonName];
     tls.VerifiedChains := [[certFor commonName]] |}.

(** A handshake with two presented certificates and one verified chain. *)
Definition partlyVerifiedState : tls.ConnectionState :=
  {| tls.PeerCertificates := [certFor "alice"; certFor "ca"];
     tls.VerifiedChains := [[certFor "alice"; certFor "ca"]] |}.

(** A handshake with no certificate and no chain. *)
Definition emptyState : tls.ConnectionState :=
  {| tls.PeerCertificates := []; tls.VerifiedChains := [] |}.

(** A stand-in for the credential comparison: the stored bytes are the
    password itself. *)
Definition sampleCompare (hashedPassword : list Byte.byte) (password : string)
  : option error :=
  if list_eq_dec Byte.byte_eq_dec hashedPassword (list_byte_of_string password)
  then None
  else Some (errors_New "hashedPassword is not the hash of the given password").

Definition sampleRequest (user : string) : proto.Message :=
  {| proto.TypeName := "*roachpb.BatchRequest";
     proto.String := "user:" ++ user;
     proto.asRequestWithUser := Some {| proto.GetUser := user |} |}.

(** A handshake whose only verified chain is for another certificate
    than the presented one. *)
Definition foreignChainState : tls.ConnectionState :=
  {| tls.PeerCertificates := [certFor "alice"];
     tls.VerifiedChains := [[certFor "mallory"; certFor "ca"]] |}.

(** A request of a type without a GetUser method. *)
Definition opaqueRequest : proto.Message :=
  {| proto.TypeName := "*roachpb.Span";
     proto.String := "key:a";
     proto.asRequestWithUser := None |}.

(** * Properties *)

(** ** Strings *)

Lemma len_zero (s : string) : Nat.eqb (String.length s) 0 = true <-> s = "".
Proof.
  destruct s as [|c s]; simpl; split; intro H; try reflexivity; discriminate H.
Qed.

Lemma len_nonzero (s : string) : s <> "" -> Nat.eqb (String.length s) 0 = false.
Proof.
  intro H. destruct (Nat.eqb (String.length s) 0) eqn:E; [|reflexivity].
  apply len_zero in E. contradiction.
Qed.

Lemma append_nil_r (s : string) : s ++ "" = s.
Proof.
  induction s as [|c s IH]; simpl; [reflexivity|]. now rewrite IH.
Qed.

(** ** GetCertificateUser *)

(** C4: the extraction is a decision list.  No handshake evidence gives
    NoTLS; otherwise no presented certificate gives NoPeerCertificate;
    otherwise a number of verified chains different from the number of
    presented certificates gives UnverifiedCertificate (two
    certificates with one chain in particular); otherwise the common
    name of the first presented certificate is returned. *)
Theorem GetCertificateUser_decision_list :
  GetCertificateUser None = Err NoTLS
  /\ (forall s, length (tls.PeerCertificates s) = 0 ->
        GetCertificateUser (Some s) = Err NoPeerCertificate)
  /\ (forall s, length (tls.PeerCertificates s) <> 0 ->
        length (tls.VerifiedChains s) <> length (tls.PeerCertificates s) ->
        GetCertificateUser (Some s) = Err UnverifiedCertificate)
  /\ (forall c1 c2 chain,
        GetCertificateUser (Some {| tls.PeerCertificates := [c1; c2];
                                    tls.VerifiedChains := [chain] |})
        = Err UnverifiedCertificate)
  /\ (forall s, length (tls.PeerCertificates s) <> 0 ->
        length (tls.VerifiedChains s) = length (tls.PeerCertificates s) ->
        exists first, hd_error (tls.PeerCertificates s) = Some first
          /\ GetCertificateUser (Some s) = Ok (pkix.CommonName (x509.Subject first))).
Proof.
  split; [reflexivity|]. split; [|split; [|split]].
  - intros [peer chains] H. destruct peer; [reflexivity|discriminate H].
  - intros [peer chains] Hp Hc. destruct peer as [|c peer]; [now elim Hp|].
    apply Nat.eqb_neq in Hc. cbn in Hc |- *. now rewrite Hc.
  - reflexivity.
  - intros [peer chains] Hp Hc. destruct peer as [|c peer]; [now elim Hp|].
    exists c. split; [reflexivity|].
    apply Nat.eqb_eq in Hc. cbn in Hc |- *. now rewrite Hc.
Qed.

Lemma GetCertificateUser_decision_list_witness :
  GetCertificateUser (Some emptyState) = Err NoPeerCertificate
  /\ GetCertificateUser (Some partlyVerifiedState) = Err UnverifiedCertificate
  /\ exists first,
      hd_error (tls.PeerCertificates (verifiedState "alice")) = Some first
      /\ GetCertificateUser (Some (verifiedState "alice"))
         = Ok (pkix.CommonName (x509.Subject first)).
Proof.
  destruct GetCertificateUser_decision_list as (_ & Hnone & Hdiff & _ & Hfirst).
  split; [apply Hnone; reflexivity|].
  split; [apply Hdiff; discriminate|].
  apply Hfirst; [discriminate|reflexivity].
Defined.

(** C10: with no presented certificate the extraction fails with
    NoPeerCertificate, whatever the number of verified chains, zero
    included: it neither fails with UnverifiedCertificate nor
    succeeds. *)
Theorem GetCertificateUser_no_certificate_first (s : tls.ConnectionState) :
  tls.PeerCertificates s = [] ->
  GetCertificateUser (Some s) = Err NoPeerCertificate
  /\ GetCertificateUser (Some s) <> Err UnverifiedCertificate
  /\ (forall user, GetCertificateUser (Some s) <> Ok user).
Proof.
  intro H. unfold GetCertificateUser. rewrite H.
  repeat split; [discriminate|intros user; discriminate].
Qed.

Lemma GetCertificateUser_no_certificate_first_witness :
  length (tls.VerifiedChains emptyState) = length (tls.PeerCertificates emptyState)
  /\ GetCertificateUser (Some emptyState) = Err NoPeerCertificate
  /\ GetCertificateUser (Some emptyState) <> Err UnverifiedCertificate
  /\ (forall user, GetCertificateUser (Some emptyState) <> Ok user).
Proof.
  split; [reflexivity|].
  apply (GetCertificateUser_no_certificate_first emptyState). reflexivity.
Defined.

(** ** UserAuthCertHook *)

(** The hook built from a mode and a resolved identity. *)
Lemma UserAuthCertHook_secure (tlsState : option tls.ConnectionState) :
  UserAuthCertHook false tlsState =
  match GetCertificateUser tlsState with
  | Err err => Err err
  | Ok certUser =>
      Ok {| captured := {| cert_insecureMode := false; cert_certUser := certUser |};
            code := certHookCode |}
  end.
Proof. reflexivity. Qed.

Lemma UserAuthCertHook_insecure (tlsState : option tls.ConnectionState) :
  UserAuthCertHook true tlsState =
  Ok {| captured := {| cert_insecureMode := true; cert_certUser := "" |};
        code := certHookCode |}.
Proof. reflexivity. Qed.

(** A run of the certificate hook's code: its decision, by failure
    kind, and the captured variables, which it leaves as they were. *)
Lemma certHookCode_run (claimed : string) (client : bool) (v : certHookVars) :
  certHookCode claimed client v
  = (if Nat.eqb (String.length claimed) 0 then Some MissingUser
     else if negb client && negb (String.eqb claimed NodeUser)
          then Some (NodeOnlyViolation claimed)
     else if cert_insecureMode v then None
     else if String.eqb (cert_certUser v) NodeUser
             || String.eqb (cert_certUser v) claimed then None
     else Some (IdentityMismatch claimed (cert_certUser v)),
     v).
Proof.
  unfold certHookCode.
  destruct (Nat.eqb (String.length claimed) 0); [reflexivity|].
  destruct (negb client && negb (String.eqb claimed NodeUser)); [reflexivity|].
  unfold bind, load, ret.
  destruct (cert_insecureMode v); [reflexivity|].
  destruct (String.eqb (cert_certUser v) NodeUser
            || String.eqb (cert_certUser v) claimed);
    cbn [negb]; [reflexivity|].
  unfold IdentityMismatch, errors_Errorf. cbn [fmt.Sprintf fmt.verb_s].
  now rewrite append_nil_r.
Qed.

Lemma certHook_outcome (insecureMode : bool) (certUser claimed : string) (client : bool) :
  outcome {| captured := {| cert_insecureMode := insecureMode;
                            cert_certUser := certUser |};
             code := certHookCode |} claimed client
  = if Nat.eqb (String.length claimed) 0 then Some MissingUser
    else if negb client && negb (String.eqb claimed NodeUser)
         then Some (NodeOnlyViolation claimed)
    else if insecureMode then None
    else if String.eqb certUser NodeUser || String.eqb certUser claimed then None
    else Some (IdentityMismatch claimed certUser).
Proof.
  unfold outcome, call; cbn [code captured].
  now rewrite certHookCode_run.
Qed.

(** C2 as stated fails for a certificate with an empty common name:
    the claimed user equals the identity and the connection is a client
    connection, yet the hook fails with MissingUser. *)
Lemma cert_hook_empty_identity_counterexample :
  GetCertificateUser (Some (verifiedState "")) = Ok ""
  /\ "" <> NodeUser
  /\ exists hook,
      UserAuthCertHook false (Some (verifiedState "")) = Ok hook
      /\ outcome hook "" true = Some MissingUser
      /\ ~ (outcome hook "" true = None <-> "" = "" /\ true = true).
Proof.
  split; [reflexivity|]. split; [discriminate|].
  eexists. split; [reflexivity|]. split; [reflexivity|].
  intros [_ H]. discriminate (H (conj eq_refl eq_refl)).
Qed.

(** C2, amended: in secure mode with a resolved identity U other than
    node, the hook succeeds iff the claimed user is U, is not empty and
    the connection is a client connection; in every other case it
    returns an error. *)
Theorem cert_hook_own_identity_only
  (tlsState : option tls.ConnectionState) (U : string)
  (hook : UserAuthHook certHookVars) :
  GetCertificateUser tlsState = Ok U ->
  U <> NodeUser ->
  UserAuthCertHook false tlsState = Ok hook ->
  forall claimed client,
    (outcome hook claimed client = None
     <-> claimed = U /\ claimed <> "" /\ client = true)
    /\ (~ (claimed = U /\ claimed <> "" /\ client = true) ->
        exists err, outcome hook claimed client = Some err).
Proof.
  intros HU Hnode Hhook claimed client.
  rewrite UserAuthCertHook_secure, HU in Hhook. injection Hhook as <-.
  rewrite certHook_outcome.
  assert (Hiff :
    (if Nat.eqb (String.length claimed) 0 then Some MissingUser
     else if negb client && negb (String.eqb claimed NodeUser)
          then Some (NodeOnlyViolation claimed)
     else if false then None
     else if String.eqb U NodeUser || String.eqb U claimed then None
     else Some (IdentityMismatch claimed U)) = None
    <-> claimed = U /\ claimed <> "" /\ client = true).
  { apply String.eqb_neq in Hnode. rewrite Hnode. cbn [orb].
    destruct (Nat.eqb (String.length claimed) 0) eqn:El.
    - apply len_zero in El. split; [discriminate|]. intros (_ & H & _). contradiction.
    - assert (Hne : claimed <> "") by (intro H; apply len_zero in H; congruence).
      destruct (String.eqb_spec U claimed) as [<-|Hd].
      + rewrite Hnode. destruct client; cbn [negb andb].
        * split; auto.
        * split; [discriminate|]. intros (_ & _ & H). discriminate H.
      + destruct (negb client && negb (String.eqb claimed NodeUser));
          (split; [discriminate|]); intros (H & _); congruence. }
  split; [exact Hiff|].
  intro Hnot.
  match goal with |- exists err, ?o = Some err => destruct o as [err|] eqn:E end.
  - now exists err.
  - exfalso. apply Hnot, Hiff. reflexivity.
Qed.

Lemma cert_hook_own_identity_only_witness :
  (outcome {| captured := {| cert_insecureMode := false; cert_certUser := "alice" |};
              code := certHookCode |} "bob" true = None
   <-> "bob" = "alice" /\ "bob" <> "" /\ true = true)
  /\ (~ ("bob" = "alice" /\ "bob" <> "" /\ true = true) ->
      exists err,
        outcome {| captured := {| cert_insecureMode := false; cert_certUser := "alice" |};
                   code := certHookCode |} "bob" true = Some err).
Proof.
  apply (@cert_hook_own_identity_only (Some (verifiedState "alice")) "alice").
  - reflexivity.
  - discriminate.
  - reflexivity.
Defined.

(** The scenarios of the specification for a certificate of alice. *)
Example alice_claims_bob :
  exists hook,
    UserAuthCertHook false (Some (verifiedState "alice")) = Ok hook
    /\ outcome hook "bob" true = Some (IdentityMismatch "bob" "alice")
    /\ outcome hook "alice" false = Some (NodeOnlyViolation "alice")
    /\ outcome hook "alice" true = None.
Proof. eexists. repeat split. Qed.

(** C3: in secure mode with resolved identity node, the hook succeeds
    for every non-empty claimed user on a client connection, and on a
    non-client connection it succeeds exactly when the claimed user is
    node. *)
Theorem cert_hook_node_identity
  (tlsState : option tls.ConnectionState) (hook : UserAuthHook certHookVars) :
  GetCertificateUser tlsState = Ok NodeUser ->
  UserAuthCertHook false tlsState = Ok hook ->
  (forall claimed, claimed <> "" -> outcome hook claimed true = None)
  /\ (forall claimed, outcome hook claimed false = None <-> claimed = NodeUser).
Proof.
  intros HU Hhook.
  rewrite UserAuthCertHook_secure, HU in Hhook. injection Hhook as <-.
  split; intros claimed.
  - intro Hne. rewrite certHook_outcome, (len_nonzero Hne). reflexivity.
  - rewrite certHook_outcome. cbn [negb andb orb].
    destruct (String.eqb_spec claimed NodeUser) as [->|Hd].
    + split; reflexivity.
    + destruct (Nat.eqb (String.length claimed) 0); split; (discriminate || congruence).
Qed.

Lemma cert_hook_node_identity_witness :
  exists hook,
    UserAuthCertHook false (Some (verifiedState "node")) = Ok hook
    /\ outcome hook "alice" true = None
    /\ (outcome hook "alice" false = None <-> "alice" = NodeUser).
Proof.
  eexists. split; [reflexivity|].
  destruct (@cert_hook_node_identity (Some (verifiedState "node")) _ eq_refl eq_refl)
    as [Hclient Hnode].
  split; [apply Hclient; discriminate|apply Hnode].
Defined.

(** C5: in secure mode the build fails exactly when the extraction
    fails on the handshake, with the same error, and then no hook
    exists; in insecure mode the build always succeeds, and the hook
    decides the same whatever the handshake and whatever identity it
    would hold. *)
Theorem cert_hook_build :
  (forall tlsState err,
      UserAuthCertHook false tlsState = Err err
      <-> GetCertificateUser tlsState = Err err)
  /\ (forall tlsState, exists hook, UserAuthCertHook true tlsState = Ok hook)
  /\ (forall tlsState1 tlsState2 hook1 hook2,
        UserAuthCertHook true tlsState1 = Ok hook1 ->
        UserAuthCertHook true tlsState2 = Ok hook2 ->
        forall claimed client,
          outcome hook1 claimed client = outcome hook2 claimed client)
  /\ (forall certUser1 certUser2 claimed client,
        outcome {| captured := {| cert_insecureMode := true;
                                  cert_certUser := certUser1 |};
                   code := certHookCode |} claimed client
        = outcome {| captured := {| cert_insecureMode := true;
                                    cert_certUser := certUser2 |};
                     code := certHookCode |} claimed client).
Proof.
  split; [|split; [|split]].
  - intros tlsState err. rewrite UserAuthCertHook_secure.
    destruct (GetCertificateUser tlsState); split; intro H;
      (discriminate H || congruence).
  - intros tlsState. rewrite UserAuthCertHook_insecure. eexists; reflexivity.
  - intros tlsState1 tlsState2 hook1 hook2 H1 H2 claimed client.
    rewrite UserAuthCertHook_insecure in H1, H2. congruence.
  - intros. now rewrite !certHook_outcome.
Qed.

Lemma cert_hook_build_witness :
  UserAuthCertHook false None = Err NoTLS
  /\ UserAuthCertHook false (Some emptyState) = Err NoPeerCertificate
  /\ UserAuthCertHook false (Some partlyVerifiedState) = Err UnverifiedCertificate
  /\ forall hook1 hook2,
      UserAuthCertHook true None = Ok hook1 ->
      UserAuthCertHook true (Some (verifiedState "alice")) = Ok hook2 ->
      outcome hook1 "bob" true = outcome hook2 "bob" true.
Proof.
  destruct cert_hook_build as (Herr & _ & Hsame & _).
  split; [apply Herr; reflexivity|].
  split; [apply Herr; reflexivity|].
  split; [apply Herr; reflexivity|].
  intros hook1 hook2 H1 H2. exact (Hsame _ _ _ _ H1 H2 "bob" true).
Defined.

(** ** UserAuthPasswordHook *)

Section PasswordHookFacts.

Variable compareHashAndPassword : list Byte.byte -> string -> option error.

(** A run of the password hook's code: its decision, by failure kind,
    and the captured variables, which it leaves as they were. *)
Lemma passwordHookCode_run (claimed : string) (client : bool) (v : passwordHookVars) :
  passwordHookCode compareHashAndPassword claimed client v
  = (if Nat.eqb (String.length claimed) 0 then Some MissingUser
     else if negb client then Some ClientOnly
     else if pw_insecureMode v then None
     else if String.eqb claimed RootUser then Some RootRequiresCertificate
     else if Nat.eqb (String.length (pw_password v)) 0 then Some InvalidCredentials
     else match compareHashAndPassword (pw_hashedPassword v) (pw_password v) with
          | Some _ => Some InvalidCredentials
          | None => None
          end,
     v).
Proof.
  unfold passwordHookCode.
  destruct (Nat.eqb (String.length claimed) 0); [reflexivity|].
  destruct client; cbn [negb]; [|reflexivity].
  unfold bind, load, ret.
  destruct (pw_insecureMode v); [reflexivity|].
  destruct (String.eqb claimed RootUser); [reflexivity|].
  destruct (Nat.eqb (String.length (pw_password v)) 0); [reflexivity|].
  destruct (compareHashAndPassword (pw_hashedPassword v) (pw_password v));
    reflexivity.
Qed.

Lemma passwordHook_outcome
  (insecureMode : bool) (password : string) (hashedPassword : list Byte.byte)
  (claimed : string) (client : bool) :
  outcome (UserAuthPasswordHook compareHashAndPassword insecureMode password
             hashedPassword) claimed client
  = if Nat.eqb (String.length claimed) 0 then Some MissingUser
    else if negb client then Some ClientOnly
    else if insecureMode then None
    else if String.eqb claimed RootUser then Some RootRequiresCertificate
    else if Nat.eqb (String.length password) 0 then Some InvalidCredentials
    else match compareHashAndPassword hashedPassword password with
         | Some _ => Some InvalidCredentials
         | None => None
         end.
Proof.
  unfold outcome, call, UserAuthPasswordHook; cbn [code captured].
  now rewrite passwordHookCode_run.
Qed.

(** C1, amended: in secure mode, for every password and stored hash,
    whether they match or not, claiming root on a client connection
    fails with RootRequiresCertificate; in insecure mode the same call
    succeeds. *)
Theorem password_hook_root (password : string) (hashedPassword : list Byte.byte) :
  outcome (UserAuthPasswordHook compareHashAndPassword false password hashedPassword)
    RootUser true = Some RootRequiresCertificate
  /\ outcome (UserAuthPasswordHook compareHashAndPassword true password hashedPassword)
       RootUser true = None.
Proof. now rewrite !passwordHook_outcome. Qed.

(** C6, amended: for every mode, password and stored hash, claiming a
    non-empty user on a non-client connection fails with ClientOnly. *)
Theorem password_hook_client_only
  (insecureMode : bool) (password : string) (hashedPassword : list Byte.byte)
  (claimed : string) :
  claimed <> "" ->
  outcome (UserAuthPasswordHook compareHashAndPassword insecureMode password
             hashedPassword) claimed false = Some ClientOnly.
Proof.
  intro Hne. now rewrite passwordHook_outcome, (len_nonzero Hne).
Qed.

(** C7: in secure mode, for a non-empty claimed user other than root on
    a client connection, the hook fails with InvalidCredentials exactly
    when the password is empty or the comparison of the stored hash
    with the password returns an error, and succeeds otherwise. *)
Theorem password_hook_credentials
  (password : string) (hashedPassword : list Byte.byte) (claimed : string) :
  claimed <> "" ->
  claimed <> RootUser ->
  let hook :=
    UserAuthPasswordHook compareHashAndPassword false password hashedPassword in
  (outcome hook claimed true = Some InvalidCredentials
   <-> password = "" \/ compareHashAndPassword hashedPassword password <> None)
  /\ (~ (password = "" \/ compareHashAndPassword hashedPassword password <> None) ->
      outcome hook claimed true = None).
Proof.
  intros Hne Hroot hook. subst hook. rewrite passwordHook_outcome.
  rewrite (len_nonzero Hne). apply String.eqb_neq in Hroot. rewrite Hroot.
  cbn [negb].
  destruct (Nat.eqb (String.length password) 0) eqn:El.
  - apply len_zero in El. split; [split; auto|]. intro H. elim H. now left.
  - assert (Hpw : password <> "") by (intro H; apply len_zero in H; congruence).
    destruct (compareHashAndPassword hashedPassword password) as [e|].
    + split; [split; [right; discriminate|reflexivity]|].
      intro H. elim H. right. discriminate.
    + split; [|reflexivity].
      split; [discriminate|]. intros [H|H]; [contradiction|now elim H].
Qed.

End PasswordHookFacts.

(** C1 as stated fails in insecure mode: root is accepted there. *)
Lemma password_hook_root_insecure_counterexample :
  outcome (UserAuthPasswordHook sampleCompare true "secret"
             (list_byte_of_string "secret")) RootUser true = None
  /\ outcome (UserAuthPasswordHook sampleCompare true "secret"
                (list_byte_of_string "secret")) RootUser true
     <> Some RootRequiresCertificate.
Proof. split; [reflexivity|discriminate]. Qed.

(** C6 as stated fails for the empty user, which is rejected first as
    missing. *)
Lemma password_hook_empty_user_counterexample :
  outcome (UserAuthPasswordHook sampleCompare false "secret"
             (list_byte_of_string "secret")) "" false = Some MissingUser
  /\ outcome (UserAuthPasswordHook sampleCompare false "secret"
                (list_byte_of_string "secret")) "" false
     <> Some ClientOnly.
Proof. split; [reflexivity|discriminate]. Qed.

Lemma password_hook_client_only_witness :
  outcome (UserAuthPasswordHook sampleCompare false "secret"
             (list_byte_of_string "secret")) "alice" false = Some ClientOnly.
Proof.
  apply (@password_hook_client_only sampleCompare). discriminate.
Defined.

Lemma password_hook_credentials_witness :
  let hook := UserAuthPasswordHook sampleCompare false "secret"
                (list_byte_of_string "secret") in
  (outcome hook "alice" true = Some InvalidCredentials
   <-> "secret" = "" \/ sampleCompare (list_byte_of_string "secret") "secret" <> None)
  /\ (~ ("secret" = ""
         \/ sampleCompare (list_byte_of_string "secret") "secret" <> None) ->
      outcome hook "alice" true = None).
Proof.
  apply (@password_hook_credentials sampleCompare); discriminate.
Defined.

(** The password scenarios: a matching password, a wrong one and an
    empty one. *)
Example alice_password :
  outcome (UserAuthPasswordHook sampleCompare false "secret"
             (list_byte_of_string "secret")) "alice" true = None
  /\ outcome (UserAuthPasswordHook sampleCompare false "guess"
                (list_byte_of_string "secret")) "alice" true
     = Some InvalidCredentials
  /\ outcome (UserAuthPasswordHook sampleCompare false "" []) "alice" true
     = Some InvalidCredentials.
Proof. repeat split. Qed.

(** Root with the matching password, in secure mode. *)
Example root_password :
  sampleCompare (list_byte_of_string "secret") "secret" = None
  /\ outcome (UserAuthPasswordHook sampleCompare false "secret"
                (list_byte_of_string "secret")) "root" true
     = Some RootRequiresCertificate.
Proof. split; reflexivity. Qed.

(** ** ProtoAuthHook *)

(** A run of the request hook's code. *)
Lemma protoHookCode_run
  (request : proto.Message) (client : bool) (userHook : UserAuthHook certHookVars) :
  protoHookCode request client userHook
  = match proto.asRequestWithUser request with
    | None => (Some (UnsupportedRequestType (proto.TypeName request)), userHook)
    | Some requestWithUser =>
        (match outcome userHook (proto.GetUser requestWithUser) client with
         | Some err => Some (InRequest err request)
         | None => None
         end,
         snd (call userHook (proto.GetUser requestWithUser) client))
    end.
Proof.
  unfold protoHookCode.
  destruct (proto.asRequestWithUser request) as [requestWithUser|].
  - unfold bind, callCaptured, outcome.
    destruct (call userHook (proto.GetUser requestWithUser) client) as [[err|] g];
      cbn [fst snd]; [|reflexivity].
    unfold ret, InRequest, errors_Errorf. cbn [fmt.Sprintf fmt.verb_s].
    now rewrite append_nil_r.
  - unfold ret, UnsupportedRequestType, errors_Errorf.
    cbn [fmt.Sprintf fmt.verb_T]. now rewrite append_nil_r.
Qed.

Lemma protoHook_outcome
  (userHook : UserAuthHook certHookVars) (request : proto.Message) (client : bool) :
  outcome {| captured := userHook; code := protoHookCode |} request client
  = match proto.asRequestWithUser request with
    | None => Some (UnsupportedRequestType (proto.TypeName request))
    | Some requestWithUser =>
        match outcome userHook (proto.GetUser requestWithUser) client with
        | Some err => Some (InRequest err request)
        | None => None
        end
    end.
Proof.
  unfold outcome at 1, call at 1; cbn [code captured].
  rewrite protoHookCode_run.
  now destruct (proto.asRequestWithUser request).
Qed.

(** A string starts with itself, whatever follows. *)
Lemma prefix_append (m rest : string) : String.prefix m (m ++ rest) = true.
Proof.
  induction m as [|c m IH]; cbn.
  - now destruct rest.
  - destruct (Ascii.ascii_dec c c) as [_|Hc]; [exact IH|now elim Hc].
Qed.

(** C8: the request hook is built exactly when the certificate hook is,
    and fails to build with the same error.  It fails with
    UnsupportedRequestType on a request that exposes no claimed user;
    on one that does, it succeeds iff the certificate hook succeeds on
    the claimed user and the connection flag, and a failure of the
    certificate hook is reported with its message first, followed by
    the request. *)
Theorem proto_hook_delegates (insecureMode : bool) (tlsState : option tls.ConnectionState) :
  (forall err,
      ProtoAuthHook insecureMode tlsState = Err err
      <-> UserAuthCertHook insecureMode tlsState = Err err)
  /\ (forall hook,
        ProtoAuthHook insecureMode tlsState = Ok hook ->
        exists userHook,
          UserAuthCertHook insecureMode tlsState = Ok userHook
          /\ forall request client,
              match proto.asRequestWithUser request with
              | None =>
                  outcome hook request client
                  = Some (UnsupportedRequestType (proto.TypeName request))
              | Some requestWithUser =>
                  let claimed := proto.GetUser requestWithUser in
                  (outcome hook request client = None
                   <-> outcome userHook claimed client = None)
                  /\ (forall err,
                        outcome userHook claimed client = Some err ->
                        outcome hook request client = Some (InRequest err request)
                        /\ String.prefix (Error err)
                             (Error (InRequest err request)) = true)
              end).
Proof.
  unfold ProtoAuthHook.
  destruct (UserAuthCertHook insecureMode tlsState) as [userHook|e].
  - split; [intro err; split; discriminate|].
    intros hook [= <-]. exists userHook. split; [reflexivity|].
    intros request client. rewrite protoHook_outcome.
    destruct (proto.asRequestWithUser request) as [requestWithUser|];
      [|reflexivity].
    cbv zeta.
    destruct (outcome userHook (proto.GetUser requestWithUser) client) as [e|].
    + split; [split; discriminate|].
      intros err [= <-]. split; [reflexivity|]. apply prefix_append.
    + split; [split; reflexivity|]. intros err H. discriminate H.
  - split; [intro err; split; congruence|]. intros hook H. discriminate H.
Qed.

Lemma proto_hook_delegates_witness :
  exists hook,
    ProtoAuthHook false (Some (verifiedState "alice")) = Ok hook
    /\ outcome hook (sampleRequest "bob") true
       = Some (InRequest (IdentityMismatch "bob" "alice") (sampleRequest "bob"))
    /\ (outcome hook (sampleRequest "alice") true = None
        <-> outcome {| captured := {| cert_insecureMode := false;
                                      cert_certUser := "alice" |};
                       code := certHookCode |} "alice" true = None).
Proof.
  eexists. split; [reflexivity|].
  destruct (proj2 (proto_hook_delegates false (Some (verifiedState "alice")))
              _ eq_refl) as (userHook & HuserHook & Hcall).
  injection HuserHook as <-.
  split.
  - apply (proj2 (Hcall (sampleRequest "bob") true)). reflexivity.
  - apply (proj1 (Hcall (sampleRequest "alice") true)).
Defined.

(** ** Hooks hold no state *)

Section NoState.

Context {V A : Type}.
Variable f : closure V A.

(** Every run of the code leaves the captured variables as they were. *)
Hypothesis code_reads_only : forall a client v, snd (code f a client v) = v.

Lemma call_leaves_closure (a : A) (client : bool) : snd (call f a client) = f.
Proof.
  unfold call. specialize (code_reads_only a client (captured f)).
  destruct (code f a client (captured f)) as [err v']. cbn [snd] in *. subst v'.
  now destruct f.
Qed.

Lemma after_leaves_closure (history : list (A * bool)) : after f history = f.
Proof.
  unfold after. induction history as [|[a client] history IH]; cbn [fold_left fst snd].
  - reflexivity.
  - now rewrite call_leaves_closure.
Qed.

End NoState.

(** C9: a hook built by UserAuthCertHook, in either mode, or by
    UserAuthPasswordHook is left unchanged by a call; a second call
    with the same arguments returns what the first returned, and so
    does a call after any history of calls. *)
Theorem hooks_hold_no_state :
  (forall insecureMode tlsState hook,
      UserAuthCertHook insecureMode tlsState = Ok hook ->
      forall claimed client,
        snd (call hook claimed client) = hook
        /\ outcome (snd (call hook claimed client)) claimed client
           = outcome hook claimed client
        /\ (forall history,
              outcome (after hook history) claimed client
              = outcome hook claimed client))
  /\ (forall compareHashAndPassword insecureMode password hashedPassword,
        let hook := UserAuthPasswordHook compareHashAndPassword insecureMode
                      password hashedPassword in
        forall claimed client,
          snd (call hook claimed client) = hook
          /\ outcome (snd (call hook claimed client)) claimed client
             = outcome hook claimed client
          /\ (forall history,
                outcome (after hook history) claimed client
                = outcome hook claimed client)).
Proof.
  split.
  - intros insecureMode tlsState hook Hhook claimed client.
    assert (Hcode : code hook = certHookCode).
    { unfold UserAuthCertHook in Hhook.
      destruct (if negb insecureMode then GetCertificateUser tlsState else Ok "");
        [injection Hhook as <-; reflexivity|discriminate Hhook]. }
    assert (Hread : forall a c v, snd (code hook a c v) = v).
    { intros a c v. now rewrite Hcode, certHookCode_run. }
    split; [|split].
    + now apply call_leaves_closure.
    + now rewrite call_leaves_closure.
    + intros history. now rewrite after_leaves_closure.
  - intros compareHashAndPassword insecureMode password hashedPassword hook
      claimed client.
    assert (Hread : forall a c v, snd (code hook a c v) = v).
    { intros a c v. subst hook. cbn [code UserAuthPasswordHook].
      now rewrite passwordHookCode_run. }
    split; [|split].
    + now apply call_leaves_closure.
    + now rewrite call_leaves_closure.
    + intros history. now rewrite after_leaves_closure.
Qed.

Lemma hooks_hold_no_state_witness :
  exists hook,
    UserAuthCertHook false (Some (verifiedState "alice")) = Ok hook
    /\ outcome (snd (call hook "bob" true)) "bob" true = outcome hook "bob" true
    /\ outcome (after hook [("alice", true); ("", false)]) "bob" true
       = outcome hook "bob" true.
Proof.
  eexists. split; [reflexivity|].
  destruct (proj1 hooks_hold_no_state false (Some (verifiedState "alice")) _ eq_refl
              "bob" true) as (_ & Htwice & Hafter).
  split; [exact Htwice|apply Hafter].
Defined.

(** * Further properties *)

(** ** Messages *)

Lemma length_append (a b : string) :
  String.length (a ++ b) = String.length a + String.length b.
Proof. induction a as [|c a IH]; cbn; [reflexivity|now rewrite IH]. Qed.

Lemma succ_add_neq (n m : nat) : S (n + m) <> m.
Proof.
  induction m as [|m IH]; [discriminate|].
  rewrite <- plus_n_Sm. intro H. injection H as H. exact (IH H).
Qed.

Lemma append_cancel_r (a b s : string) : a ++ s = b ++ s -> a = b.
Proof.
  revert b. induction a as [|c a IH]; intros [|d b] H; cbn in H.
  - reflexivity.
  - apply (f_equal String.length) in H. cbn in H. rewrite length_append in H.
    symmetry in H. now apply succ_add_neq in H.
  - apply (f_equal String.length) in H. cbn in H. rewrite length_append in H.
    now apply succ_add_neq in H.
  - injection H as -> H. f_equal. now apply IH.
Qed.

(** The message for a missing user is not the message for a user that
    is not allowed, whoever that user is. *)
Lemma MissingUser_not_NodeOnlyViolation (claimed : string) :
  MissingUser <> NodeOnlyViolation claimed.
Proof.
  unfold MissingUser, NodeOnlyViolation, errors_New. intro H.
  injection H as H.
  apply (f_equal String.length) in H. rewrite length_append in H. cbn in H.
  revert H. generalize (String.length claimed). intros n H.
  rewrite Nat.add_comm in H. cbn in H. discriminate H.
Qed.

(** ** GetCertificateUser *)

(** The extraction succeeds exactly on a handshake that presents at
    least one certificate and has as many verified chains as presented
    certificates; the user is then the common name of the first
    certificate. *)
Theorem GetCertificateUser_success
  (tlsState : option tls.ConnectionState) (user : string) :
  GetCertificateUser tlsState = Ok user
  <-> exists s first rest,
        tlsState = Some s
        /\ tls.PeerCertificates s = first :: rest
        /\ length (tls.VerifiedChains s) = S (length rest)
        /\ user = pkix.CommonName (x509.Subject first).
Proof.
  split.
  - destruct tlsState as [[peer chains]|]; [|discriminate].
    destruct peer as [|first rest]; [discriminate|].
    cbn. destruct (Nat.eqb (length chains) (S (length rest))) eqn:E;
      [|discriminate].
    intros [= <-]. apply Nat.eqb_eq in E.
    exists {| tls.PeerCertificates := first :: rest; tls.VerifiedChains := chains |},
      first, rest.
    repeat split; assumption.
  - intros ([peer chains] & first & rest & -> & Hpeer & Hchains & ->).
    cbn in Hpeer, Hchains. subst peer. cbn.
    apply Nat.eqb_eq in Hchains. now rewrite Hchains.
Qed.

(** The extraction reads the number of presented certificates, the
    number of verified chains and the common name of the first
    certificate, and nothing else: neither the other certificates nor
    what the chains contain. *)
Theorem GetCertificateUser_reads (s1 s2 : tls.ConnectionState) :
  length (tls.PeerCertificates s1) = length (tls.PeerCertificates s2) ->
  length (tls.VerifiedChains s1) = length (tls.VerifiedChains s2) ->
  option_map (fun c => pkix.CommonName (x509.Subject c))
    (hd_error (tls.PeerCertificates s1))
  = option_map (fun c => pkix.CommonName (x509.Subject c))
      (hd_error (tls.PeerCertificates s2)) ->
  GetCertificateUser (Some s1) = GetCertificateUser (Some s2).
Proof.
  destruct s1 as [peer1 chains1], s2 as [peer2 chains2]; cbn.
  intros Hpeer Hchains Hfirst.
  destruct peer1 as [|c1 rest1], peer2 as [|c2 rest2];
    try discriminate Hpeer; [reflexivity|].
  cbn in *. injection Hfirst as ->. now rewrite Hpeer, Hchains.
Qed.

Lemma GetCertificateUser_reads_witness :
  GetCertificateUser (Some (verifiedState "alice"))
  = GetCertificateUser (Some foreignChainState).
Proof.
  apply GetCertificateUser_reads; reflexivity.
Defined.

(** ** UserAuthCertHook *)

(** What a successful build captured. *)
Lemma UserAuthCertHook_built
  (insecureMode : bool) (tlsState : option tls.ConnectionState)
  (hook : UserAuthHook certHookVars) :
  UserAuthCertHook insecureMode tlsState = Ok hook ->
  exists certUser,
    hook = {| captured := {| cert_insecureMode := insecureMode;
                             cert_certUser := certUser |};
              code := certHookCode |}
    /\ (insecureMode = false -> GetCertificateUser tlsState = Ok certUser).
Proof.
  destruct insecureMode.
  - rewrite UserAuthCertHook_insecure. intros [= <-]. exists "".
    split; [reflexivity|discriminate].
  - rewrite UserAuthCertHook_secure.
    destruct (GetCertificateUser tlsState) as [certUser|e]; [|discriminate].
    intros [= <-]. exists certUser. split; reflexivity.
Qed.

Ltac by_cases_on_strings :=
  repeat match goal with
         | |- context [Nat.eqb (String.length ?s) 0] =>
             let E := fresh "E" in
             destruct (Nat.eqb (String.length s) 0) eqn:E;
             [apply len_zero in E
             |assert (s <> "") by (let H := fresh in intro H; apply len_zero in H; congruence);
              clear E]
         | |- context [String.eqb ?a ?b] => destruct (String.eqb_spec a b)
         end.

Lemma certHook_accepts (insecureMode : bool) (certUser claimed : string) (client : bool) :
  outcome {| captured := {| cert_insecureMode := insecureMode;
                            cert_certUser := certUser |};
             code := certHookCode |} claimed client = None
  <-> claimed <> ""
      /\ (client = true \/ claimed = NodeUser)
      /\ (insecureMode = true \/ certUser = NodeUser \/ certUser = claimed).
Proof.
  rewrite certHook_outcome.
  by_cases_on_strings; destruct client, insecureMode; cbn [negb andb orb];
    (split; [intro H0; try discriminate H0; repeat split; auto|]);
    intros (H1 & [H2|H2] & [H3|[H3|H3]]);
    try reflexivity; try discriminate; try contradiction; congruence.
Qed.

(** A hook built by UserAuthCertHook accepts exactly when the claimed
    user is not empty, the connection is a client connection or the
    claimed user is node, and the mode is insecure or the certificate
    is for node or for the claimed user. *)
Theorem cert_hook_accepts
  (insecureMode : bool) (tlsState : option tls.ConnectionState)
  (hook : UserAuthHook certHookVars) :
  UserAuthCertHook insecureMode tlsState = Ok hook ->
  forall claimed client,
    outcome hook claimed client = None
    <-> claimed <> ""
        /\ (client = true \/ claimed = NodeUser)
        /\ (insecureMode = true
            \/ GetCertificateUser tlsState = Ok NodeUser
            \/ GetCertificateUser tlsState = Ok claimed).
Proof.
  intros Hhook claimed client.
  destruct (UserAuthCertHook_built _ _ Hhook) as (certUser & -> & HU).
  rewrite certHook_accepts.
  destruct insecureMode.
  - split; intros (H1 & H2 & _); auto.
  - rewrite (HU eq_refl).
    split; intros (H1 & H2 & [H3|[H3|H3]]); try discriminate H3;
      repeat split; auto; right; (left + right); congruence.
Qed.

Lemma cert_hook_accepts_witness :
  exists hook,
    UserAuthCertHook false (Some (verifiedState "alice")) = Ok hook
    /\ (outcome hook "alice" true = None
        <-> "alice" <> ""
            /\ (true = true \/ "alice" = NodeUser)
            /\ (false = true
                \/ GetCertificateUser (Some (verifiedState "alice")) = Ok NodeUser
                \/ GetCertificateUser (Some (verifiedState "alice")) = Ok "alice")).
Proof.
  eexists. split; [reflexivity|].
  apply (@cert_hook_accepts false (Some (verifiedState "alice"))). reflexivity.
Defined.

Lemma Some_eq (A : Type) (a b : A) : Some a = Some b -> a = b.
Proof. now intros [= ->]. Qed.

Lemma IdentityMismatch_not_MissingUser (claimed certUser : string) :
  IdentityMismatch claimed certUser <> MissingUser.
Proof. intro H. discriminate H. Qed.

Lemma IdentityMismatch_not_NodeOnlyViolation (claimed certUser other : string) :
  IdentityMismatch claimed certUser <> NodeOnlyViolation other.
Proof. intro H. discriminate H. Qed.

(** The failure of a hook built by UserAuthCertHook tells which check
    rejected the call: MissingUser is returned exactly for the empty
    user, NodeOnlyViolation exactly for a non-empty user other than
    node on a non-client connection, in either mode; any other failure
    is an IdentityMismatch, in secure mode, naming a certificate user
    that is neither node nor the claimed user. *)
Theorem cert_hook_failure_kinds
  (insecureMode : bool) (tlsState : option tls.ConnectionState)
  (hook : UserAuthHook certHookVars) :
  UserAuthCertHook insecureMode tlsState = Ok hook ->
  forall claimed client,
    (outcome hook claimed client = Some MissingUser <-> claimed = "")
    /\ (outcome hook claimed client = Some (NodeOnlyViolation claimed)
        <-> claimed <> "" /\ client = false /\ claimed <> NodeUser)
    /\ (forall err,
          outcome hook claimed client = Some err ->
          err <> MissingUser ->
          err <> NodeOnlyViolation claimed ->
          insecureMode = false
          /\ exists certUser,
              GetCertificateUser tlsState = Ok certUser
              /\ err = IdentityMismatch claimed certUser
              /\ certUser <> NodeUser
              /\ certUser <> claimed).
Proof.
  intros Hhook claimed client.
  destruct (UserAuthCertHook_built _ _ Hhook) as (certUser & -> & HU).
  rewrite certHook_outcome.
  pose proof (@MissingUser_not_NodeOnlyViolation claimed) as Hmn.
  pose proof (@IdentityMismatch_not_MissingUser claimed certUser) as Him.
  pose proof (@IdentityMismatch_not_NodeOnlyViolation claimed certUser claimed) as Hin.
  by_cases_on_strings; destruct client, insecureMode; cbn [negb andb orb];
    (split;
     [split; intro H0;
      [try discriminate H0; try (apply Some_eq in H0)
      |try reflexivity]
     |split;
      [split; intro H0;
       [try discriminate H0; try (apply Some_eq in H0)
       |try reflexivity; destruct H0 as (? & ? & ?)]
      |intros err H0 Hm Hn; try discriminate H0; apply Some_eq in H0; subst err;
       first [congruence
             |split; [reflexivity|]; exists certUser;
              (split; [exact (HU eq_refl)|]); repeat split; assumption]]]).
  all: try congruence.
  all: repeat split; congruence.
Qed.

Lemma cert_hook_failure_kinds_witness :
  exists hook,
    UserAuthCertHook false (Some (verifiedState "alice")) = Ok hook
    /\ outcome hook "bob" true = Some (IdentityMismatch "bob" "alice")
    /\ (outcome hook "bob" false = Some (NodeOnlyViolation "bob")
        <-> "bob" <> "" /\ false = false /\ "bob" <> NodeUser).
Proof.
  eexists. split; [reflexivity|].
  split; [reflexivity|].
  apply (@cert_hook_failure_kinds false (Some (verifiedState "alice")) _ eq_refl
           "bob" false).
Defined.

(** Whatever a hook built in secure mode accepts, a hook built in
    insecure mode accepts too. *)
Theorem cert_hook_insecure_accepts_more
  (tlsState tlsState' : option tls.ConnectionState)
  (secureHook insecureHook : UserAuthHook certHookVars) :
  UserAuthCertHook false tlsState = Ok secureHook ->
  UserAuthCertHook true tlsState' = Ok insecureHook ->
  forall claimed client,
    outcome secureHook claimed client = None ->
    outcome insecureHook claimed client = None.
Proof.
  intros Hs Hi claimed client.
  destruct (UserAuthCertHook_built _ _ Hs) as (certUser & -> & _).
  destruct (UserAuthCertHook_built _ _ Hi) as (certUser' & -> & _).
  rewrite !certHook_accepts. intros (H1 & H2 & _). auto.
Qed.

Lemma cert_hook_insecure_accepts_more_witness :
  exists secureHook insecureHook,
    UserAuthCertHook false (Some (verifiedState "alice")) = Ok secureHook
    /\ UserAuthCertHook true None = Ok insecureHook
    /\ outcome secureHook "alice" true = None
    /\ outcome insecureHook "alice" true = None.
Proof.
  do 2 eexists. split; [reflexivity|]. split; [reflexivity|].
  split; [reflexivity|].
  apply (@cert_hook_insecure_accepts_more (Some (verifiedState "alice")) None
           _ _ eq_refl eq_refl "alice" true).
  reflexivity.
Defined.

(** Whatever a hook built in secure mode from any certificate accepts,
    a hook built from a certificate for node accepts too. *)
Theorem cert_hook_node_accepts_more
  (nodeState tlsState : option tls.ConnectionState)
  (nodeHook hook : UserAuthHook certHookVars) :
  GetCertificateUser nodeState = Ok NodeUser ->
  UserAuthCertHook false nodeState = Ok nodeHook ->
  UserAuthCertHook false tlsState = Ok hook ->
  forall claimed client,
    outcome hook claimed client = None ->
    outcome nodeHook claimed client = None.
Proof.
  intros Hnode Hn Hh claimed client.
  destruct (UserAuthCertHook_built _ _ Hn) as (nodeUser & -> & HU).
  destruct (UserAuthCertHook_built _ _ Hh) as (certUser & -> & _).
  specialize (HU eq_refl). rewrite Hnode in HU. injection HU as <-.
  rewrite !certHook_accepts. intros (H1 & H2 & _). auto.
Qed.

Lemma cert_hook_node_accepts_more_witness :
  exists nodeHook hook,
    UserAuthCertHook false (Some (verifiedState "node")) = Ok nodeHook
    /\ UserAuthCertHook false (Some (verifiedState "alice")) = Ok hook
    /\ outcome hook "alice" true = None
    /\ outcome nodeHook "alice" true = None.
Proof.
  do 2 eexists. split; [reflexivity|]. split; [reflexivity|].
  split; [reflexivity|].
  apply (@cert_hook_node_accepts_more (Some (verifiedState "node"))
           (Some (verifiedState "alice")) _ _ eq_refl eq_refl eq_refl
           "alice" true).
  reflexivity.
Defined.

(** A hook built by UserAuthCertHook accepts on a non-client connection
    only the user node, and what it accepts there it accepts on a
    client connection as well. *)
Theorem cert_hook_node_connection
  (insecureMode : bool) (tlsState : option tls.ConnectionState)
  (hook : UserAuthHook certHookVars) :
  UserAuthCertHook insecureMode tlsState = Ok hook ->
  forall claimed,
    outcome hook claimed false = None ->
    claimed = NodeUser /\ outcome hook claimed true = None.
Proof.
  intros Hhook claimed.
  destruct (UserAuthCertHook_built _ _ Hhook) as (certUser & -> & _).
  rewrite !certHook_accepts. intros (H1 & [H2|H2] & H3); [discriminate H2|].
  auto.
Qed.

Lemma cert_hook_node_connection_witness :
  exists hook,
    UserAuthCertHook false (Some (verifiedState "node")) = Ok hook
    /\ outcome hook "node" false = None
    /\ "node" = NodeUser
    /\ outcome hook "node" true = None.
Proof.
  eexists. split; [reflexivity|]. split; [reflexivity|].
  apply (@cert_hook_node_connection false (Some (verifiedState "node")) _
           eq_refl "node").
  reflexivity.
Defined.

(** From the handshake to the decision: with at least one presented
    certificate and as many verified chains as certificates, the
    secure build succeeds, and the hook accepts exactly the non-empty
    users that the common name of the first certificate covers (the
    name is node, or it is the claimed user), on a client connection
    or, for the user node, on any connection. *)
Theorem cert_hook_from_handshake
  (s : tls.ConnectionState) (first : x509.Certificate)
  (rest : list x509.Certificate) :
  tls.PeerCertificates s = first :: rest ->
  length (tls.VerifiedChains s) = S (length rest) ->
  exists hook,
    UserAuthCertHook false (Some s) = Ok hook
    /\ forall claimed client,
        outcome hook claimed client = None
        <-> claimed <> ""
            /\ (client = true \/ claimed = NodeUser)
            /\ (pkix.CommonName (x509.Subject first) = NodeUser
                \/ pkix.CommonName (x509.Subject first) = claimed).
Proof.
  intros Hpeer Hchains.
  assert (HU : GetCertificateUser (Some s)
               = Ok (pkix.CommonName (x509.Subject first))).
  { unfold GetCertificateUser. rewrite Hpeer. cbn [length].
    apply Nat.eqb_eq in Hchains. now rewrite Hchains. }
  rewrite UserAuthCertHook_secure, HU. eexists. split; [reflexivity|].
  intros claimed client. rewrite certHook_accepts.
  split; intros (H1 & H2 & H3); repeat split; auto.
  - destruct H3 as [H3|H3]; [discriminate H3|exact H3].
Qed.

Lemma cert_hook_from_handshake_witness :
  exists hook,
    UserAuthCertHook false (Some foreignChainState) = Ok hook
    /\ (outcome hook "alice" true = None
        <-> "alice" <> ""
            /\ (true = true \/ "alice" = NodeUser)
            /\ ("alice" = NodeUser \/ "alice" = "alice")).
Proof.
  destruct (@cert_hook_from_handshake foreignChainState (certFor "alice") []
              eq_refl eq_refl) as (hook & Hhook & Haccepts).
  exists hook. split; [exact Hhook|apply Haccepts].
Defined.

(** ** UserAuthPasswordHook *)

Section PasswordHookDecisions.

Variable compareHashAndPassword : list Byte.byte -> string -> option error.

Let hookFor := UserAuthPasswordHook compareHashAndPassword.

(** The password hook accepts exactly when the claimed user is not
    empty, the connection is a client connection, and either the mode
    is insecure or the user is not root, the password is not empty and
    the comparison with the stored hash returns no error. *)
Theorem password_hook_accepts
  (insecureMode : bool) (password : string) (hashedPassword : list Byte.byte)
  (claimed : string) (client : bool) :
  outcome (hookFor insecureMode password hashedPassword) claimed client = None
  <-> claimed <> ""
      /\ client = true
      /\ (insecureMode = true
          \/ (claimed <> RootUser
              /\ password <> ""
              /\ compareHashAndPassword hashedPassword password = None)).
Proof.
  unfold hookFor. rewrite passwordHook_outcome.
  by_cases_on_strings; destruct client, insecureMode; cbn [negb];
    try destruct (compareHashAndPassword hashedPassword password) as [e|];
    (split;
     [intro Hres; try discriminate Hres; repeat split; auto
     |intros (Hu & Hc & [Hm|(Hr & Hp & Hcmp)]);
      try reflexivity; try discriminate; congruence]).
Qed.

(** The failure of the password hook tells which check rejected the
    call: MissingUser exactly for the empty user; ClientOnly exactly
    for a non-empty user on a non-client connection, in either mode;
    RootRequiresCertificate exactly for root on a client connection in
    secure mode; InvalidCredentials exactly for another non-empty user
    on a client connection in secure mode whose password is empty or
    does not compare. *)
Theorem password_hook_failure_kinds
  (insecureMode : bool) (password : string) (hashedPassword : list Byte.byte)
  (claimed : string) (client : bool) :
  let result := outcome (hookFor insecureMode password hashedPassword) claimed client in
  (result = Some MissingUser <-> claimed = "")
  /\ (result = Some ClientOnly <-> claimed <> "" /\ client = false)
  /\ (result = Some RootRequiresCertificate
      <-> claimed = RootUser /\ client = true /\ insecureMode = false)
  /\ (result = Some InvalidCredentials
      <-> claimed <> "" /\ claimed <> RootUser /\ client = true
          /\ insecureMode = false
          /\ (password = ""
              \/ compareHashAndPassword hashedPassword password <> None)).
Proof.
  unfold hookFor. cbv zeta. rewrite passwordHook_outcome.
  assert (Hroot : RootUser <> "") by discriminate.
  unfold MissingUser, ClientOnly, RootRequiresCertificate, InvalidCredentials.
  by_cases_on_strings; destruct client, insecureMode; cbn [negb];
    try destruct (compareHashAndPassword hashedPassword password) as [e|];
    repeat split; intros;
    try match goal with
        | Hres : Some _ = Some _ |- _ => discriminate Hres
        | Hres : None = Some _ |- _ => discriminate Hres
        end;
    repeat match goal with
           | Hand : _ /\ _ |- _ => destruct Hand
           | Hor : _ \/ _ |- _ => destruct Hor
           end;
    try congruence;
    try (right; discriminate); try (left; assumption).
Qed.

(** The password hook does not look at which user is claimed beyond
    the empty user and root: for any two other users it decides the
    same. *)
Theorem password_hook_ignores_user
  (insecureMode : bool) (password : string) (hashedPassword : list Byte.byte)
  (user1 user2 : string) (client : bool) :
  user1 <> "" -> user1 <> RootUser ->
  user2 <> "" -> user2 <> RootUser ->
  outcome (hookFor insecureMode password hashedPassword) user1 client
  = outcome (hookFor insecureMode password hashedPassword) user2 client.
Proof.
  intros H1 R1 H2 R2. unfold hookFor. rewrite !passwordHook_outcome.
  rewrite (len_nonzero H1), (len_nonzero H2).
  apply String.eqb_neq in R1, R2. now rewrite R1, R2.
Qed.

(** Whatever the password hook accepts in secure mode, it accepts in
    insecure mode, with any password and stored hash. *)
Theorem password_hook_insecure_accepts_more
  (password password' : string) (hashedPassword hashedPassword' : list Byte.byte)
  (claimed : string) (client : bool) :
  outcome (hookFor false password hashedPassword) claimed client = None ->
  outcome (hookFor true password' hashedPassword') claimed client = None.
Proof.
  unfold hookFor. rewrite !passwordHook_outcome.
  destruct (Nat.eqb (String.length claimed) 0); [discriminate|].
  destruct client; cbn [negb]; [reflexivity|discriminate].
Qed.

End PasswordHookDecisions.

Lemma password_hook_ignores_user_witness :
  outcome (UserAuthPasswordHook sampleCompare false "secret"
             (list_byte_of_string "secret")) "alice" true
  = outcome (UserAuthPasswordHook sampleCompare false "secret"
               (list_byte_of_string "secret")) "bob" true.
Proof.
  apply (@password_hook_ignores_user sampleCompare); discriminate.
Defined.

Lemma password_hook_insecure_accepts_more_witness :
  outcome (UserAuthPasswordHook sampleCompare false "secret"
             (list_byte_of_string "secret")) "alice" true = None
  /\ outcome (UserAuthPasswordHook sampleCompare true "guess" [])
       "alice" true = None.
Proof.
  split; [reflexivity|].
  apply (@password_hook_insecure_accepts_more sampleCompare "secret" "guess"
           (list_byte_of_string "secret") []).
  reflexivity.
Defined.

(** ** ProtoAuthHook *)

(** What a successful build captured. *)
Lemma ProtoAuthHook_built
  (insecureMode : bool) (tlsState : option tls.ConnectionState)
  (hook : closure (UserAuthHook certHookVars) proto.Message) :
  ProtoAuthHook insecureMode tlsState = Ok hook ->
  exists userHook,
    UserAuthCertHook insecureMode tlsState = Ok userHook
    /\ hook = {| captured := userHook; code := protoHookCode |}.
Proof.
  unfold ProtoAuthHook.
  destruct (UserAuthCertHook insecureMode tlsState) as [userHook|e];
    [|discriminate].
  intros [= <-]. now exists userHook.
Qed.

(** A closure that every call leaves as it was is the same after any
    history of calls. *)
Lemma after_fixed {V A : Type} (f : closure V A) :
  (forall a client, snd (call f a client) = f) ->
  forall history, after f history = f.
Proof.
  intros Hcall history. unfold after.
  induction history as [|[a client] history IH]; cbn [fold_left fst snd].
  - reflexivity.
  - now rewrite Hcall.
Qed.

(** The request hook holds no state either: a call leaves it, and the
    user hook it captured, as they were, and it decides the same after
    any history of calls. *)
Theorem proto_hook_holds_no_state
  (insecureMode : bool) (tlsState : option tls.ConnectionState)
  (hook : closure (UserAuthHook certHookVars) proto.Message) :
  ProtoAuthHook insecureMode tlsState = Ok hook ->
  forall request client,
    snd (call hook request client) = hook
    /\ (forall history,
          outcome (after hook history) request client
          = outcome hook request client).
Proof.
  intros Hhook.
  destruct (ProtoAuthHook_built _ _ Hhook) as (userHook & HuserHook & ->).
  destruct (UserAuthCertHook_built _ _ HuserHook) as (certUser & -> & _).
  assert (Hcall : forall request client,
             snd (call {| captured :=
                            {| captured := {| cert_insecureMode := insecureMode;
                                              cert_certUser := certUser |};
                               code := certHookCode |};
                          code := protoHookCode |} request client)
             = {| captured :=
                    {| captured := {| cert_insecureMode := insecureMode;
                                      cert_certUser := certUser |};
                       code := certHookCode |};
                  code := protoHookCode |}).
  { intros request client. unfold call at 1; cbn [code captured].
    rewrite protoHookCode_run.
    destruct (proto.asRequestWithUser request) as [requestWithUser|];
      cbn [snd]; [|reflexivity].
    rewrite call_leaves_closure; [reflexivity|].
    intros a c v. cbn [code]. now rewrite certHookCode_run. }
  intros request client. split; [apply Hcall|].
  intros history. now rewrite (after_fixed Hcall).
Qed.

Lemma proto_hook_holds_no_state_witness :
  exists hook,
    ProtoAuthHook false (Some (verifiedState "alice")) = Ok hook
    /\ snd (call hook (sampleRequest "bob") true) = hook
    /\ outcome (after hook [(sampleRequest "alice", true); (opaqueRequest, false)])
         (sampleRequest "bob") true
       = outcome hook (sampleRequest "bob") true.
Proof.
  eexists. split; [reflexivity|].
  destruct (@proto_hook_holds_no_state false (Some (verifiedState "alice")) _
              eq_refl (sampleRequest "bob") true) as [Hcall Hafter].
  split; [exact Hcall|apply Hafter].
Defined.

(** The request hook accepts exactly the requests that expose a claimed
    user the certificate hook accepts: a non-empty user, on a client
    connection unless the user is node, and in secure mode covered by
    the certificate. *)
Theorem proto_hook_accepts
  (insecureMode : bool) (tlsState : option tls.ConnectionState)
  (hook : closure (UserAuthHook certHookVars) proto.Message) :
  ProtoAuthHook insecureMode tlsState = Ok hook ->
  forall request client,
    outcome hook request client = None
    <-> exists requestWithUser,
          proto.asRequestWithUser request = Some requestWithUser
          /\ proto.GetUser requestWithUser <> ""
          /\ (client = true \/ proto.GetUser requestWithUser = NodeUser)
          /\ (insecureMode = true
              \/ GetCertificateUser tlsState = Ok NodeUser
              \/ GetCertificateUser tlsState
                 = Ok (proto.GetUser requestWithUser)).
Proof.
  intros Hhook request client.
  destruct (ProtoAuthHook_built _ _ Hhook) as (userHook & HuserHook & ->).
  destruct (UserAuthCertHook_built _ _ HuserHook) as (certUser & -> & HU).
  rewrite protoHook_outcome.
  destruct (proto.asRequestWithUser request) as [requestWithUser|].
  - pose proof (certHook_accepts insecureMode certUser
                  (proto.GetUser requestWithUser) client) as Hacc.
    destruct (outcome _ (proto.GetUser requestWithUser) client) as [e|].
    + split; [discriminate|].
      intros (r & [= <-] & H1 & H2 & H3).
      assert (Hno : @None error = None) by reflexivity.
      assert (Some e = None); [|discriminate].
      apply Hacc. repeat split; auto.
      destruct insecureMode; [now left|right].
      rewrite (HU eq_refl) in H3.
      destruct H3 as [H3|[H3|H3]]; [discriminate H3| |];
        injection H3 as H3; auto.
    + split; [|reflexivity]. intros _.
      destruct (proj1 Hacc eq_refl) as (H1 & H2 & H3).
      exists requestWithUser. repeat split; auto.
      destruct insecureMode; [now left|right].
      rewrite (HU eq_refl). destruct H3 as [H3|[H3|H3]];
        [discriminate H3| |]; [left|right]; congruence.
  - split; [discriminate|]. intros (r & Hr & _). discriminate Hr.
Qed.

Lemma proto_hook_accepts_witness :
  exists hook,
    ProtoAuthHook false (Some (verifiedState "node")) = Ok hook
    /\ (outcome hook (sampleRequest "alice") true = None
        <-> exists requestWithUser,
              proto.asRequestWithUser (sampleRequest "alice") = Some requestWithUser
              /\ proto.GetUser requestWithUser <> ""
              /\ (true = true \/ proto.GetUser requestWithUser = NodeUser)
              /\ (false = true
                  \/ GetCertificateUser (Some (verifiedState "node")) = Ok NodeUser
                  \/ GetCertificateUser (Some (verifiedState "node"))
                     = Ok (proto.GetUser requestWithUser))).
Proof.
  eexists. split; [reflexivity|].
  apply (@proto_hook_accepts false (Some (verifiedState "node")) _ eq_refl).
Defined.

(** The request hook reads nothing of a request but the user it
    claims: two requests that claim the same user, or both expose
    none, are accepted or rejected together. *)
Theorem proto_hook_reads_user
  (insecureMode : bool) (tlsState : option tls.ConnectionState)
  (hook : closure (UserAuthHook certHookVars) proto.Message) :
  ProtoAuthHook insecureMode tlsState = Ok hook ->
  forall request1 request2 client,
    option_map proto.GetUser (proto.asRequestWithUser request1)
    = option_map proto.GetUser (proto.asRequestWithUser request2) ->
    (outcome hook request1 client = None <-> outcome hook request2 client = None).
Proof.
  intros Hhook request1 request2 client Huser.
  destruct (ProtoAuthHook_built _ _ Hhook) as (userHook & _ & ->).
  rewrite !protoHook_outcome.
  destruct (proto.asRequestWithUser request1) as [r1|],
           (proto.asRequestWithUser request2) as [r2|];
    try discriminate Huser.
  - cbn in Huser. injection Huser as ->.
    destruct (outcome userHook (proto.GetUser r2) client); split;
      (discriminate || reflexivity).
  - split; discriminate.
Qed.

Lemma proto_hook_reads_user_witness :
  exists hook,
    ProtoAuthHook false (Some (verifiedState "alice")) = Ok hook
    /\ (outcome hook (sampleRequest "alice") true = None
        <-> outcome hook {| proto.TypeName := "*roachpb.AdminSplitRequest";
                            proto.String := "split at key:a";
                            proto.asRequestWithUser :=
                              Some {| proto.GetUser := "alice" |} |} true = None).
Proof.
  eexists. split; [reflexivity|].
  apply (@proto_hook_reads_user false (Some (verifiedState "alice")) _ eq_refl).
  reflexivity.
Defined.

(** The error of the request hook is UnsupportedRequestType exactly
    for a request that exposes no claimed user, and it names that
    request's type; a rejected claim is never reported as an
    unsupported request. *)
Theorem proto_hook_unsupported
  (insecureMode : bool) (tlsState : option tls.ConnectionState)
  (hook : closure (UserAuthHook certHookVars) proto.Message) :
  ProtoAuthHook insecureMode tlsState = Ok hook ->
  forall request client typeName,
    outcome hook request client = Some (UnsupportedRequestType typeName)
    <-> proto.asRequestWithUser request = None
        /\ typeName = proto.TypeName request.
Proof.
  intros Hhook request client typeName.
  destruct (ProtoAuthHook_built _ _ Hhook) as (userHook & HuserHook & ->).
  destruct (UserAuthCertHook_built _ _ HuserHook) as (certUser & -> & _).
  rewrite protoHook_outcome.
  destruct (proto.asRequestWithUser request) as [requestWithUser|].
  - split; [|intros [Hnone _]; discriminate Hnone].
    rewrite certHook_outcome.
    destruct (Nat.eqb _ 0); [intro Hres; discriminate Hres|].
    destruct (negb client && negb _); [intro Hres; discriminate Hres|].
    destruct insecureMode; [intro Hres; discriminate Hres|].
    destruct (_ || _); intro Hres; discriminate Hres.
  - split.
    + intro Hres. apply Some_eq in Hres. unfold UnsupportedRequestType in Hres.
      injection Hres as Hres. auto.
    + intros [_ ->]. reflexivity.
Qed.

Lemma proto_hook_unsupported_witness :
  exists hook,
    ProtoAuthHook true None = Ok hook
    /\ (outcome hook opaqueRequest true
        = Some (UnsupportedRequestType "*roachpb.Span")
        <-> proto.asRequestWithUser opaqueRequest = None
            /\ "*roachpb.Span" = proto.TypeName opaqueRequest).
Proof.
  eexists. split; [reflexivity|].
  apply (@proto_hook_unsupported true None _ eq_refl).
Defined.

(** The error of the request hook determines the error of the
    certificate hook behind it: the request hook reports a failure as
    the wrapping of an error exactly when the certificate hook returned
    that error for the claimed user. *)
Theorem proto_hook_error_origin
  (insecureMode : bool) (tlsState : option tls.ConnectionState)
  (hook : closure (UserAuthHook certHookVars) proto.Message)
  (userHook : UserAuthHook certHookVars) :
  ProtoAuthHook insecureMode tlsState = Ok hook ->
  UserAuthCertHook insecureMode tlsState = Ok userHook ->
  forall request requestWithUser client err,
    proto.asRequestWithUser request = Some requestWithUser ->
    (outcome hook request client = Some (InRequest err request)
     <-> outcome userHook (proto.GetUser requestWithUser) client = Some err).
Proof.
  intros Hhook HuserHook request requestWithUser client err Hr.
  destruct (ProtoAuthHook_built _ _ Hhook) as (userHook' & HuserHook' & ->).
  rewrite HuserHook in HuserHook'. injection HuserHook' as <-.
  rewrite protoHook_outcome, Hr.
  destruct (outcome userHook (proto.GetUser requestWithUser) client) as [e|].
  - split; intro Hres; apply Some_eq in Hres; [|now subst e].
    unfold InRequest, errors_New in Hres. injection Hres as Hres.
    apply append_cancel_r in Hres. destruct e, err; cbn in Hres. now subst.
  - split; discriminate.
Qed.

Lemma proto_hook_error_origin_witness :
  exists hook userHook,
    ProtoAuthHook false (Some (verifiedState "alice")) = Ok hook
    /\ UserAuthCertHook false (Some (verifiedState "alice")) = Ok userHook
    /\ (outcome hook (sampleRequest "bob") true
        = Some (InRequest (IdentityMismatch "bob" "alice") (sampleRequest "bob"))
        <-> outcome userHook "bob" true = Some (IdentityMismatch "bob" "alice")).
Proof.
  do 2 eexists. split; [reflexivity|]. split; [reflexivity|].
  apply (@proto_hook_error_origin false (Some (verifiedState "alice")) _ _
           eq_refl eq_refl (sampleRequest "bob") {| proto.GetUser := "bob" |}).
  reflexivity.
Defined.
